(** * ryzen_smu: scripts/monitor_cpu.py

    A shallow embedding of the decoding core of [monitor_cpu.py]: the CCD
    count computed from three SMN registers ([getCCDCount]) and one pass of
    the PM-table decoder ([parse_pm_table]).

    Python integers are [Z] (unbounded; [>>], [&] and [|] are [Z.shiftr],
    [Z.land] and [Z.lor]).  Python floats are IEEE-754 binary64 values,
    modelled by the Standard Library's [spec_float] with [prec = 53] and
    [emax = 1024]; NaN payloads are not observable in the script and are not
    modelled.  A call either returns a value or raises an exception. *)

From Stdlib Require Import ZArith List Bool Lia String Ascii SpecFloat.
From Stdlib Require Strings.Byte.
Import ListNotations.
Local Open Scope Z_scope.

(** ** Results of calls: a value or a raised exception *)

Inductive py_exn : Type :=
| StructError        (* struct.error: unpack needs a buffer of the right size *)
| ZeroDivisionError  (* float division by zero *)
| OverflowError      (* int too large to convert to float *)
| ValueError.        (* int(text, 16) on text that is not a hexadecimal number *)

Inductive result (A : Type) : Type :=
| Returns (a : A)
| Raises (e : py_exn).
Arguments Returns {A} a.
Arguments Raises {A} e.

Definition bind {A B : Type} (c : result A) (k : A -> result B) : result B :=
  match c with
  | Returns a => k a
  | Raises e => Raises e
  end.

Notation "x <- c ;; k" := (bind c (fun x => k))
  (at level 61, c at next level, right associativity).

(** ** The SMN register file of the driver *)

Module Smn.

(** What the driver's [smn] file does for one address: [accepted a] is the
    number of bytes [fp.write] reports when the packed address [a] is
    written, and [contents a] is the text a subsequent read of the file
    yields.  The file is taken to open and to be readable: an [OSError] is
    outside this model. *)
Record driver : Type := {
  accepted : Z -> Z;
  contents : Z -> string
}.

Section Reads.

(** Python's builtin [int(text, base=16)]; [None] stands for [ValueError]. *)
Variable int16 : string -> option Z.
Variable drv : driver.

(** [write_file32(SMN_PATH, value)]: true when four bytes were written. *)
Definition write_file32 (value : Z) : bool :=
  accepted drv value =? 4.

(** [read_file_str(SMN_PATH)] after address [addr] was written: [fp.read(9)]
    gives at most [expectedLen = 9] characters; [None] is the script's
    [False]. *)
Definition read_file_str (addr : Z) : option string :=
  let result := substring 0 9 (contents drv addr) in
  if negb (Nat.eqb (String.length result) 9) then None else Some result.

Definition read_smn_addr (addr : Z) : result Z :=
  if negb (write_file32 addr) then Returns 0
  else
    match read_file_str addr with
    | None => Returns 0
    | Some value =>
        match int16 value with
        | Some n => Returns n
        | None => Raises ValueError
        end
    end.

End Reads.

(** A read of a register fails when the write of its address is short or
    the text read back is not nine characters long (the two places where
    [read_smn_addr] prints its message). *)
Definition read_failed (drv : driver) (addr : Z) : bool :=
  negb (write_file32 drv addr) ||
  match read_file_str drv addr with
  | None => true
  | Some _ => false
  end.

(** The test of line 92 and its two branches. *)
Definition bit0_step (value1 value4 ccdCount : Z) : Z :=
  if (Z.land value1 1 =? 0) || negb (Z.land value4 1 =? 0)
  then ccdCount
  else ccdCount + 1.

(** One of the tests of lines 97 to 116. *)
Definition mask_step (mask value1 value4 ccdCount : Z) : Z :=
  if negb (Z.land mask value1 =? 0) && (Z.land mask value4 =? 0)
  then ccdCount + 1
  else ccdCount.

(** Lines 97 to 116, in order. *)
Definition mask_steps (value1 value4 ccdCount : Z) : Z :=
  let ccdCount := mask_step 0x80000000 value1 value4 ccdCount in
  let ccdCount := mask_step 0x40000000 value1 value4 ccdCount in
  let ccdCount := mask_step 0x20000000 value1 value4 ccdCount in
  let ccdCount := mask_step 0x10000000 value1 value4 ccdCount in
  let ccdCount := mask_step 0x8000000 value1 value4 ccdCount in
  let ccdCount := mask_step 0x4000000 value1 value4 ccdCount in
  let ccdCount := mask_step 0x2000000 value1 value4 ccdCount in
  ccdCount.

(** Lines 84 to 118 once the three registers [r1], [r2], [r3] have been
    read. *)
Definition ccd_count (r1 r2 r3 : Z) : Z :=
  let ccdCount := 0 in
  let value1 := Z.land (Z.shiftr r1 22) 0xff in
  let value2 := Z.land (Z.shiftr r2 30) 0xff in
  let value3 := Z.land r3 0x3f in
  let value4 := Z.lor value2 (4 * value3) in
  let ccdCount := bit0_step value1 value4 ccdCount in
  mask_steps value1 value4 ccdCount.

Definition getCCDCount (int16 : string -> option Z) (drv : driver) : result Z :=
  r1 <- read_smn_addr int16 drv 0x5D21A ;;
  r2 <- read_smn_addr int16 drv 0x5D21B ;;
  r3 <- read_smn_addr int16 drv 0x5D21C ;;
  Returns (ccd_count r1 r2 r3).

(** The masks the script tests, in its order. *)
Definition tested_masks : list Z :=
  [0x80000000; 0x40000000; 0x20000000; 0x10000000;
   0x08000000; 0x04000000; 0x02000000].

(** The mask list of the specification's step 7, and the step as the
    specification words it. *)
Definition spec_masks : list Z :=
  [0x80000000; 0x40000000; 0x20000000; 0x10000000;
   0x08000000; 0x04000000; 0x02000000; 0x01000000].

Definition spec_mask_steps (masks : list Z) (v1 v4 count : Z) : Z :=
  fold_left
    (fun count mask =>
       if negb (Z.land v1 mask =? 0) && (Z.land v4 mask =? 0)
       then count + 1 else count)
    masks count.

(** Plain hexadecimal text as the driver prints it: hexadecimal digits,
    then optional trailing white space.  Used as [int16] in the examples. *)
Definition hex_digit (c : ascii) : option Z :=
  let n := Z.of_nat (nat_of_ascii c) in
  if (48 <=? n) && (n <=? 57) then Some (n - 48)
  else if (65 <=? n) && (n <=? 70) then Some (n - 55)
  else if (97 <=? n) && (n <=? 102) then Some (n - 87)
  else None.

Definition is_space (c : ascii) : bool :=
  let n := nat_of_ascii c in
  (Nat.eqb n 32) || (Nat.leb 9 n && Nat.leb n 13).

Fixpoint all_space (s : string) : bool :=
  match s with
  | EmptyString => true
  | String c s' => is_space c && all_space s'
  end.

Fixpoint hex_digits (acc : Z) (seen : bool) (s : string) : option Z :=
  match s with
  | EmptyString => if seen then Some acc else None
  | String c s' =>
      match hex_digit c with
      | Some d => hex_digits (16 * acc + d) true s'
      | None => if seen && all_space s then Some acc else None
      end
  end.

Definition plain_hex (s : string) : option Z := hex_digits 0 false s.

End Smn.

(** ** Python floats *)

Module Float.

Definition float : Type := spec_float.

Definition prec : Z := 53.
Definition emax : Z := 1024.

Definition fadd : float -> float -> float := SFadd prec emax.
Definition fmul : float -> float -> float := SFmul prec emax.
Definition fdiv : float -> float -> float := SFdiv prec emax.

(** The comparisons [a < b], [a == b] and [a >= b]; each is false as soon
    as one side is NaN. *)
Definition flt (a b : float) : bool := SFltb a b.
Definition feq (a b : float) : bool := SFeqb a b.
Definition fge (a b : float) : bool := SFleb b a.

Definition is_nan (a : float) : bool :=
  match a with
  | S754_nan => true
  | _ => false
  end.

(** The float nearest to an integer (ties to even). *)
Definition of_Z (n : Z) : float := binary_normalize prec emax n 0 false.

(** The integer [0] that initialises [totalA] and [peakFreq]: in every
    comparison or sum with a float it stands for [0.0]. *)
Definition zero : float := S754_zero false.

(** The literals [1000.0], and [100] once converted by [/]. *)
Definition f1000 : float := Eval vm_compute in of_Z 1000.
Definition f100 : float := Eval vm_compute in of_Z 100.

(** Conversion of an [int] operand of a float operation; an integer that
    rounds beyond the largest float raises [OverflowError]. *)
Inductive conv : Type :=
| Conv (f : float)
| Overflow.

Definition float_of_int (n : Z) : conv :=
  match of_Z n with
  | S754_infinity _ => Overflow
  | f => Conv f
  end.

(** The value of the four bytes of a C [float] (IEEE-754 binary32) whose
    bit pattern is [w], as the [double] a Python float holds: the
    conversion is exact. *)
Definition of_bits32 (w : Z) : float :=
  let s := Z.testbit w 31 in
  let e := Z.land (Z.shiftr w 23) 0xff in
  let m := Z.land w 0x7fffff in
  if e =? 255 then
    if m =? 0 then S754_infinity s else S754_nan
  else
    let mant := if e =? 0 then m else m + 0x800000 in
    let expo := (if e =? 0 then 1 else e) - 150 in
    binary_normalize prec emax (if s then - mant else mant) expo s.

End Float.

(** ** The PM table *)

Module Pm.

Import Float.

Definition buffer : Type := list Byte.byte.

(** [buffer[offset:(offset + 4)]] for an offset that is not negative: the
    slice is shorter than four bytes when the buffer ends early. *)
Definition slice4 (pm : buffer) (offset : Z) : list Byte.byte :=
  firstn 4 (skipn (Z.to_nat offset) pm).

Definition byte_val (b : Byte.byte) : Z := Z.of_N (Byte.to_N b).

(** [struct.unpack("@f", bytes)[0]] on a little-endian host. *)
Definition unpack_f (bytes : list Byte.byte) : result float :=
  match bytes with
  | [b0; b1; b2; b3] =>
      Returns (of_bits32 (Z.lor (byte_val b0)
                    (Z.lor (Z.shiftl (byte_val b1) 8)
                    (Z.lor (Z.shiftl (byte_val b2) 16)
                           (Z.shiftl (byte_val b3) 24)))))
  | _ => Raises StructError
  end.

Definition read_float (pm : buffer) (offset : Z) : result float :=
  unpack_f (slice4 pm offset).

(** [a / b] on floats. *)
Definition truediv (a b : float) : result float :=
  match b with
  | S754_zero _ => Raises ZeroDivisionError
  | _ => Returns (fdiv a b)
  end.

(** [a / n] for a float [a] and an [int] [n]. *)
Definition truediv_int (a : float) (n : Z) : result float :=
  match float_of_int n with
  | Overflow => Raises OverflowError
  | Conv b => truediv a b
  end.

Definition getCoreCount : nat := 8.

(** The variables of the loop of lines 138 to 153; [peakActivity] is unbound
    until its first assignment, and [seen] keeps the pairs [freq],
    [activity] of the iterations done so far, in order. *)
Record loop_state : Type := {
  totalA : float;
  peakFreq : float;
  peakActivity : option float;
  i : Z;
  seen : list (float * float)
}.

(** Line 138 sets [totalA], [peakFreq] and [i] to 0 and leaves
    [peakActivity] alone: it is unbound ([None]) on the first turn of
    [while True] and carried over from the turn before on every later
    one. *)
Definition loop_init (carried : option float) : loop_state :=
  {| totalA := zero; peakFreq := zero; peakActivity := carried; i := 0;
     seen := [] |}.

(** The body of the [while i < cores] loop (lines 140 to 153). *)
Definition loop_body (pm : buffer) (st : loop_state) : result loop_state :=
  raw <- read_float pm (0x30C + i st * 4) ;;
  let freq := fmul raw f1000 in
  activity <- read_float pm (0x32C + i st * 4) ;;
  let peak :=
    if flt (peakFreq st) freq then (freq, Some activity)
    else (peakFreq st, peakActivity st) in
  Returns {| totalA := fadd (totalA st) activity;
        peakFreq := fst peak;
        peakActivity := snd peak;
        i := i st + 1;
        seen := seen st ++ [(freq, activity)] |}.

(** [n] more iterations of the loop: started at [i = 0] with [n = cores],
    this is [while i < cores]. *)
Fixpoint loop (pm : buffer) (n : nat) (st : loop_state) : result loop_state :=
  match n with
  | O => Returns st
  | S n' => st' <- loop_body pm st ;; loop pm n' st'
  end.

(** What one pass of [parse_pm_table] has computed when it reaches
    [sleep(1)]; [edcU_raw] is [edcU] as line 164 assigns it, [edcU] its
    value after lines 168 and 169, [coupledMode] is true for ["ON"]. *)
Record snapshot : Type := {
  cores_seen : list (float * float);
  totalActivity : float;
  peakFrequency : float;
  peakFrequencyActivity : option float;
  pptW : float;
  pptU : float;
  tdcA : float;
  tdcU : float;
  tjMax : float;
  tempC : float;
  edcA : float;
  edcU_raw : float;
  edcU : float;
  CorP : float;
  SoCP : float;
  fclkMHz : float;
  uclkMHz : float;
  mclkMHz : float;
  coupledMode : bool;
  vddpV : float;
  vddgV : float
}.

(** Lines 138 to 198: one pass of the body of [while True] in
    [parse_pm_table] over the table [pm], with [cores] for the local of that
    name and [carried] for what [peakActivity] holds when the pass starts.
    The prints are left out; the divisions in the arguments of lines 175 to
    177 are kept, since a zero limit makes them raise. *)
Definition parse_pass (carried : option float) (pm : buffer) (cores : nat)
    : result snapshot :=
  st <- loop pm cores (loop_init carried) ;;
  pptW <- read_float pm 0x000 ;;
  pptU <- read_float pm 0x004 ;;
  tdcA <- read_float pm 0x008 ;;
  tdcU <- read_float pm 0x00C ;;
  tjMax <- read_float pm 0x010 ;;
  tempC <- read_float pm 0x014 ;;
  edcA <- read_float pm 0x020 ;;
  raw <- read_float pm 0x024 ;;
  avg <- truediv_int (totalA st) (Z.of_nat cores) ;;
  share <- truediv_int avg 100 ;;
  let edcU_raw := fmul raw share in
  CorP <- read_float pm 0x060 ;;
  SoCP <- read_float pm 0x064 ;;
  let edcU := if flt edcU_raw tdcU then tdcU else edcU_raw in
  _ <- truediv pptU pptW ;;
  _ <- truediv tdcU tdcA ;;
  _ <- truediv edcU edcA ;;
  fclkMHz <- read_float pm 0x118 ;;
  uclkMHz <- read_float pm 0x128 ;;
  mclkMHz <- read_float pm 0x138 ;;
  let coupledMode := if feq uclkMHz mclkMHz then true else false in
  vddpV <- read_float pm 0x1F4 ;;
  vddgV <- read_float pm 0x1F8 ;;
  Returns {| cores_seen := seen st;
        totalActivity := totalA st;
        peakFrequency := peakFreq st;
        peakFrequencyActivity := peakActivity st;
        pptW := pptW; pptU := pptU; tdcA := tdcA; tdcU := tdcU;
        tjMax := tjMax; tempC := tempC; edcA := edcA;
        edcU_raw := edcU_raw; edcU := edcU;
        CorP := CorP; SoCP := SoCP;
        fclkMHz := fclkMHz; uclkMHz := uclkMHz; mclkMHz := mclkMHz;
        coupledMode := coupledMode;
        vddpV := vddpV; vddgV := vddgV |}.

(** The update of lines 143 to 145 on the pair [peakFreq], [peakActivity]
    for one core's [freq] and [activity]. *)
Definition peak_step (peak : float * option float) (core : float * float)
    : float * option float :=
  if flt (fst peak) (fst core) then (fst core, Some (snd core)) else peak.

(** One turn of [while True]: the table [pm] has been read, the CCD count
    is resolved (line 132), then the table is decoded.  The files are taken
    to open and to be readable: an [OSError] of [read_pm_table] or of the
    [smn] file is outside this model. *)
Definition parse_pm_table (int16 : string -> option Z) (drv : Smn.driver)
    (carried : option float) (pm : buffer) : result (Z * snapshot) :=
  ccds <- Smn.getCCDCount int16 drv ;;
  snap <- parse_pass carried pm getCoreCount ;;
  Returns (ccds, snap).

(** The first turns of [while True], one for each pair of what the [smn]
    file does and what [read_pm_table] returns in that turn: [peakActivity]
    goes from one turn to the next, and a turn that raises ends the
    script. *)
Fixpoint parse_turns (int16 : string -> option Z) (carried : option float)
    (turns : list (Smn.driver * buffer)) : result (list (Z * snapshot)) :=
  match turns with
  | [] => Returns []
  | (drv, pm) :: rest =>
      turn <- parse_pm_table int16 drv carried pm ;;
      later <- parse_turns int16 (peakFrequencyActivity (snd turn)) rest ;;
      Returns (turn :: later)
  end.

End Pm.

(** ** Sample drivers *)

Module SmnSamples.

Import Smn.

(** The nine characters the driver prints for a register: eight hexadecimal
    digits and a line feed. *)
Definition line (digits : string) : string :=
  (digits ++ String "010"%char EmptyString)%string.

(** Register 0x5D21A reads 0x00400000 and 0x5D21C reads 0; the read of
    0x5D21B comes back empty. *)
Definition short_read_driver : driver :=
  {| accepted := fun _ => 4;
     contents := fun addr =>
       if addr =? 0x5D21A then line "00400000"
       else if addr =? 0x5D21B then EmptyString
       else line "00000000" |}.

(** A driver that takes no write at all. *)
Definition dead_driver : driver :=
  {| accepted := fun _ => 0; contents := fun _ => EmptyString |}.

End SmnSamples.

(** ** Sample tables *)

Module PmSamples.

Import Float Pm.

Definition byte_of (n : Z) : Byte.byte :=
  match Byte.of_N (Z.to_N (Z.land n 0xff)) with
  | Some b => b
  | None => Byte.x00
  end.

(** The four bytes of the 32-bit pattern [w], least significant first. *)
Definition le32 (w : Z) : list Byte.byte :=
  [byte_of w; byte_of (Z.shiftr w 8); byte_of (Z.shiftr w 16); byte_of (Z.shiftr w 24)].

(** [pm] with the four bytes at [offset] replaced by those of [w]. *)
Definition poke (pm : buffer) (field : nat * Z) : buffer :=
  let (offset, w) := field in
  firstn offset pm ++ le32 w ++ skipn (offset + 4) pm.

(** A table of [size] zero bytes with the given fields written into it. *)
Definition table (size : nat) (fields : list (nat * Z)) : buffer :=
  fold_left poke fields (repeat Byte.x00 size).

(** Bit patterns of C floats. *)
Definition f32_1 : Z := 0x3F800000.        (* 1.0 *)
Definition f32_3 : Z := 0x40400000.        (* 3.0 *)
Definition f32_3_5 : Z := 0x40600000.      (* 3.5 *)
Definition f32_4 : Z := 0x40800000.        (* 4.0 *)
Definition f32_10 : Z := 0x41200000.       (* 10.0 *)
Definition f32_20 : Z := 0x41A00000.       (* 20.0 *)
Definition f32_30 : Z := 0x41F00000.       (* 30.0 *)
Definition f32_40 : Z := 0x42200000.       (* 40.0 *)
Definition f32_100 : Z := 0x42C80000.      (* 100.0 *)
Definition f32_1600 : Z := 0x44C80000.     (* 1600.0 *)
Definition f32_1599_999 : Z := 0x44C7FFF8. (* the C float nearest to 1599.999 *)
Definition f32_minus_1 : Z := 0xBF800000.  (* -1.0 *)
Definition f32_nan : Z := 0x7FC00000.      (* a quiet NaN *)

(** Limits of 1.0, so that the percentages of lines 175 to 177 divide. *)
Definition limits : list (nat * Z) :=
  [(0x000, f32_1); (0x008, f32_1); (0x020, f32_1)]%nat.

(** Four cores at 3.0, 4.0, 4.0 and 3.5 with activities 10, 20, 30 and 40;
    a raw EDC reading of 100.0, a TDC usage of 1.0, UCLK = MCLK = 1600.0. *)
Definition four_cores : list (nat * Z) :=
  limits ++
  [(0x30C, f32_3); (0x310, f32_4); (0x314, f32_4); (0x318, f32_3_5);
   (0x32C, f32_10); (0x330, f32_20); (0x334, f32_30); (0x338, f32_40);
   (0x024, f32_100); (0x00C, f32_1);
   (0x128, f32_1600); (0x138, f32_1600)]%nat.

Definition four_core_table : buffer := table 0x33C four_cores.

(** The same with MCLK one step of eight units in the last place lower. *)
Definition uncoupled_table : buffer :=
  table 0x33C (four_cores ++ [(0x138%nat, f32_1599_999)]).

(** The same with a NaN for the TDC usage. *)
Definition nan_tdc_table : buffer :=
  table 0x33C (four_cores ++ [(0x00C%nat, f32_nan)]).

(** One core whose frequency field holds -1.0. *)
Definition negative_table : buffer :=
  table 0x330 (limits ++ [(0x30C%nat, f32_minus_1); (0x32C%nat, f32_10)]).

(** One core whose frequency field holds 0.0, with an activity of 10.0. *)
Definition idle_table : buffer :=
  table 0x330 (limits ++ [(0x32C%nat, f32_10)]).

(** A table of 0x349 bytes: three bytes short of what eight cores need. *)
Definition short_table : buffer := firstn 0x349 (table 0x34C four_cores).

End PmSamples.

(** ** The other readers and the writers of the script *)

Module Files.

Import Float Pm PmSamples.

(** The value of the eight bytes of a C [double] whose bit pattern is
    [w]. *)
Definition of_bits64 (w : Z) : float :=
  let s := Z.testbit w 63 in
  let e := Z.land (Z.shiftr w 52) 0x7ff in
  let m := Z.land w 0xfffffffffffff in
  if e =? 2047 then
    if m =? 0 then S754_infinity s else S754_nan
  else
    let mant := if e =? 0 then m else m + 0x10000000000000 in
    let expo := (if e =? 0 then 1 else e) - 1075 in
    binary_normalize prec emax (if s then - mant else mant) expo s.

(** The unsigned integer whose bytes, least significant first, are
    [bytes]. *)
Fixpoint le_value (bytes : list Byte.byte) : Z :=
  match bytes with
  | [] => 0
  | b :: rest => Z.lor (byte_val b) (Z.shiftl (le_value rest) 8)
  end.

(** [buffer[offset:(offset + 8)]] for an offset that is not negative. *)
Definition slice8 (pm : buffer) (offset : Z) : list Byte.byte :=
  firstn 8 (skipn (Z.to_nat offset) pm).

(** [struct.unpack("@I", bytes)[0]] on a little-endian host. *)
Definition unpack_I (bytes : list Byte.byte) : result Z :=
  if Nat.eqb (List.length bytes) 4 then Returns (le_value bytes)
  else Raises StructError.

(** [struct.unpack("@d", bytes)[0]] on a little-endian host. *)
Definition unpack_d (bytes : list Byte.byte) : result float :=
  if Nat.eqb (List.length bytes) 8 then Returns (of_bits64 (le_value bytes))
  else Raises StructError.

Definition read_int (pm : buffer) (offset : Z) : result Z :=
  unpack_I (slice4 pm offset).

Definition read_double (pm : buffer) (offset : Z) : result float :=
  unpack_d (slice8 pm offset).

(** [struct.pack("<I...I", v1, ..., vn)]: four bytes for each value, least
    significant first; a value outside 0 .. 2^32 - 1 raises
    [struct.error]. *)
Fixpoint pack_I (values : list Z) : result (list Byte.byte) :=
  match values with
  | [] => Returns []
  | v :: rest =>
      if (0 <=? v) && (v <? 0x100000000) then
        bytes <- pack_I rest ;; Returns (le32 v ++ bytes)
      else Raises StructError
  end.

(** The three writers, over [fp_write]: what [fp.write] reports for the
    bytes it is given. *)
Definition write_file32 (fp_write : list Byte.byte -> Z) (value : Z)
    : result bool :=
  bytes <- pack_I [value] ;;
  let result := fp_write bytes in
  Returns (result =? 4).

Definition write_file64 (fp_write : list Byte.byte -> Z) (value1 value2 : Z)
    : result bool :=
  bytes <- pack_I [value1; value2] ;;
  let result := fp_write bytes in
  Returns (result =? 8).

Definition write_file192 (fp_write : list Byte.byte -> Z)
    (v1 v2 v3 v4 v5 v6 : Z) : result bool :=
  bytes <- pack_I [v1; v2; v3; v4; v5; v6] ;;
  let result := fp_write bytes in
  Returns (result =? 24).


End Files.

(** ** Sample tables for eight cores *)

Module MoreSamples.

Import Pm PmSamples.

(** The four-core sample, long enough for eight cores (the last four read
    zero). *)
Definition eight_core_table : buffer := table 0x34C four_cores.


(** Eight cores whose frequency fields hold 0.0, the first with an activity
    of 10.0. *)
Definition idle_eight_table : buffer :=
  table 0x34C (limits ++ [(0x32C%nat, f32_10)]).

End MoreSamples.

(** * Properties of the CCD count *)

Module SmnFacts.

Import Smn SmnSamples.

(** A mask whose bits lie above bit 7 meets nothing in a value that was
    masked with 0xff. *)
Lemma high_mask_land_byte (mask x : Z) :
  Z.land mask 0xff = 0 -> Z.land mask (Z.land x 0xff) = 0.
Proof.
  intros Hm.
  rewrite (Z.land_comm x), Z.land_assoc, Hm.
  apply Z.land_0_l.
Qed.

Lemma mask_step_byte (mask x value4 ccdCount : Z) :
  Z.land mask 0xff = 0 ->
  mask_step mask (Z.land x 0xff) value4 ccdCount = ccdCount.
Proof.
  intros Hm. unfold mask_step.
  rewrite (high_mask_land_byte mask x Hm). reflexivity.
Qed.

Lemma mask_steps_byte (x value4 ccdCount : Z) :
  mask_steps (Z.land x 0xff) value4 ccdCount = ccdCount.
Proof.
  unfold mask_steps.
  repeat (rewrite mask_step_byte by reflexivity).
  reflexivity.
Qed.

Lemma bit0_step_cases (value1 value4 ccdCount : Z) :
  bit0_step value1 value4 ccdCount = ccdCount \/
  bit0_step value1 value4 ccdCount = ccdCount + 1.
Proof.
  unfold bit0_step.
  destruct ((Z.land value1 1 =? 0) || negb (Z.land value4 1 =? 0)); auto.
Qed.

Lemma bit0_step_one (value1 value4 : Z) :
  bit0_step value1 value4 0 = 1 <-> Z.land value1 1 <> 0 /\ Z.land value4 1 = 0.
Proof.
  unfold bit0_step.
  destruct (Z.eqb_spec (Z.land value1 1) 0) as [E1 | E1];
    destruct (Z.eqb_spec (Z.land value4 1) 0) as [E4 | E4];
    cbn [orb negb]; split; intros H; try discriminate; try reflexivity;
    try tauto.
Qed.

Lemma bit0_step_zero (value1 value4 : Z) :
  bit0_step value1 value4 0 = 0 <->
  ~ (Z.land value1 1 <> 0 /\ Z.land value4 1 = 0).
Proof.
  unfold bit0_step.
  destruct (Z.eqb_spec (Z.land value1 1) 0) as [E1 | E1];
    destruct (Z.eqb_spec (Z.land value4 1) 0) as [E4 | E4];
    cbn [orb negb]; split; intros H; try discriminate; try reflexivity;
    try tauto.
Qed.

Lemma ccd_count_bit0 (r1 r2 r3 : Z) :
  ccd_count r1 r2 r3 =
  bit0_step (Z.land (Z.shiftr r1 22) 0xff)
            (Z.lor (Z.land (Z.shiftr r2 30) 0xff) (4 * Z.land r3 0x3f)) 0.
Proof.
  unfold ccd_count. cbv zeta. apply mask_steps_byte.
Qed.

Lemma ccd_count_cases (r1 r2 r3 : Z) :
  ccd_count r1 r2 r3 = 0 \/ ccd_count r1 r2 r3 = 1.
Proof.
  rewrite ccd_count_bit0. apply bit0_step_cases.
Qed.

Lemma read_smn_addr_cases (int16 : string -> option Z) (drv : driver) (addr : Z) :
  (exists n, read_smn_addr int16 drv addr = Returns n) \/
  read_smn_addr int16 drv addr = Raises ValueError.
Proof.
  unfold read_smn_addr.
  destruct (negb (write_file32 drv addr)); [left; eauto |].
  destruct (read_file_str drv addr) as [value |]; [| left; eauto].
  destruct (int16 value); [left; eauto | right; reflexivity].
Qed.

(** The order of the operands of [&] does not matter: one test of the
    script is one test of the specification's wording. *)
Lemma mask_step_spec (mask v1 v4 count : Z) :
  mask_step mask v1 v4 count =
  (if negb (Z.land v1 mask =? 0) && (Z.land v4 mask =? 0)
   then count + 1 else count).
Proof.
  unfold mask_step.
  rewrite (Z.land_comm mask v1), (Z.land_comm mask v4). reflexivity.
Qed.

(** Flipping bit 24 of a value leaves its meet with a mask that does not
    have bit 24 unchanged. *)
Lemma land_flip_bit24 (mask v : Z) :
  Z.land mask 0x01000000 = 0 ->
  Z.land mask (Z.lxor v 0x01000000) = Z.land mask v.
Proof.
  intros Hm. apply Z.bits_inj'. intros n Hn.
  rewrite !Z.land_spec, Z.lxor_spec.
  assert (Hb : Z.testbit (Z.land mask 0x01000000) n = false)
    by (rewrite Hm; apply Z.bits_0).
  rewrite Z.land_spec in Hb.
  destruct (Z.testbit mask n); cbn [andb] in *; [| reflexivity].
  rewrite Hb. apply xorb_false_r.
Qed.

Lemma mask_step_flip_bit24 (mask v1 v4 count : Z) :
  Z.land mask 0x01000000 = 0 ->
  mask_step mask (Z.lxor v1 0x01000000) (Z.lxor v4 0x01000000) count =
  mask_step mask v1 v4 count.
Proof.
  intros Hm. unfold mask_step.
  rewrite !(land_flip_bit24 mask _ Hm). reflexivity.
Qed.

(** The tests of lines 97 to 116 as a function of [v1] and [v4]: with bit
    24 set in [v1] and clear in [v4] the eight masks of the specification
    count one, the seven tests of the script count none. *)
Lemma mask_0x01000000_not_tested :
  spec_mask_steps spec_masks 0x01000000 0 0 = 1 /\
  mask_steps 0x01000000 0 0 = 0.
Proof. split; reflexivity. Qed.

(** The tests of lines 97 to 116 are those of the seven masks 0x80000000
    down to 0x02000000; bit 24 of [v1] and of [v4] has no influence on
    them. *)
Lemma mask_steps_seven_masks (v1 v4 count : Z) :
  mask_steps v1 v4 count = spec_mask_steps tested_masks v1 v4 count /\
  spec_mask_steps tested_masks v1 v4 count =
    count + Z.of_nat (List.length
      (filter (fun mask => negb (Z.land v1 mask =? 0) && (Z.land v4 mask =? 0))
              tested_masks)) /\
  mask_steps (Z.lxor v1 0x01000000) (Z.lxor v4 0x01000000) count =
    mask_steps v1 v4 count.
Proof.
  split; [| split].
  - unfold mask_steps, spec_mask_steps, tested_masks. cbn [fold_left].
    rewrite !mask_step_spec. reflexivity.
  - unfold spec_mask_steps, tested_masks. cbn [fold_left filter].
    repeat match goal with
           | |- context [if ?b then _ else _] => destruct b
           end; cbn [List.length]; lia.
  - unfold mask_steps.
    rewrite !mask_step_flip_bit24 by reflexivity. reflexivity.
Qed.




(** [getCCDCount] reads the three registers in order and returns any
    function that agrees with [ccd_count] on what they hold. *)
Lemma getCCDCount_as (int16 : string -> option Z) (drv : driver)
    (f : Z -> Z -> Z -> Z) :
  (forall r1 r2 r3, ccd_count r1 r2 r3 = f r1 r2 r3) ->
  getCCDCount int16 drv =
    (r1 <- read_smn_addr int16 drv 0x5D21A ;;
     r2 <- read_smn_addr int16 drv 0x5D21B ;;
     r3 <- read_smn_addr int16 drv 0x5D21C ;;
     Returns (f r1 r2 r3)).
Proof.
  intros Hf. unfold getCCDCount.
  destruct (read_smn_addr int16 drv 0x5D21A) as [r1 |]; [| reflexivity].
  destruct (read_smn_addr int16 drv 0x5D21B) as [r2 |]; [| reflexivity].
  destruct (read_smn_addr int16 drv 0x5D21C) as [r3 |]; [| reflexivity].
  cbn [bind]. now rewrite Hf.
Qed.


(** C2: [getCCDCount] reads the registers at 0x5D21A, 0x5D21B and 0x5D21C
    and, with v1 and v4 computed from them, returns the count of the bit-0
    step; that step takes the count from 0 to 1 exactly when
    [(v1 & 1) != 0] and [(v4 & 1) == 0], and leaves it at 0 otherwise. *)
Theorem bit0_step_increment (int16 : string -> option Z) (drv : driver) :
  getCCDCount int16 drv =
    (r1 <- read_smn_addr int16 drv 0x5D21A ;;
     r2 <- read_smn_addr int16 drv 0x5D21B ;;
     r3 <- read_smn_addr int16 drv 0x5D21C ;;
     let v1 := Z.land (Z.shiftr r1 22) 0xFF in
     let v4 := Z.lor (Z.land (Z.shiftr r2 30) 0xFF) (4 * Z.land r3 0x3F) in
     Returns (bit0_step v1 v4 0)) /\
  (forall r1 r2 r3 : Z,
     let v1 := Z.land (Z.shiftr r1 22) 0xFF in
     let v4 := Z.lor (Z.land (Z.shiftr r2 30) 0xFF) (4 * Z.land r3 0x3F) in
     (bit0_step v1 v4 0 = 1 <-> Z.land v1 1 <> 0 /\ Z.land v4 1 = 0) /\
     (bit0_step v1 v4 0 = 0 <-> ~ (Z.land v1 1 <> 0 /\ Z.land v4 1 = 0))).
Proof.
  split.
  - apply (getCCDCount_as int16 drv
             (fun r1 r2 r3 =>
                bit0_step (Z.land (Z.shiftr r1 22) 0xff)
                  (Z.lor (Z.land (Z.shiftr r2 30) 0xff)
                         (4 * Z.land r3 0x3f)) 0)).
    exact ccd_count_bit0.
  - intros r1 r2 r3. cbv zeta.
    split; [apply bit0_step_one | apply bit0_step_zero].
Qed.

(** C10: the count is 0 or 1 for every content of the three registers, and
    a call of [getCCDCount] returns 0, returns 1, or raises the
    [ValueError] of a register text that is not hexadecimal. *)
Theorem ccd_count_zero_or_one (int16 : string -> option Z) (drv : driver) :
  (forall r1 r2 r3 : Z, ccd_count r1 r2 r3 = 0 \/ ccd_count r1 r2 r3 = 1) /\
  (getCCDCount int16 drv = Returns 0 \/
   getCCDCount int16 drv = Returns 1 \/
   getCCDCount int16 drv = Raises ValueError).
Proof.
  split; [exact ccd_count_cases |].
  unfold getCCDCount.
  destruct (read_smn_addr_cases int16 drv 0x5D21A) as [[r1 E1] | E1];
    rewrite E1; cbn [bind]; [| auto].
  destruct (read_smn_addr_cases int16 drv 0x5D21B) as [[r2 E2] | E2];
    rewrite E2; cbn [bind]; [| auto].
  destruct (read_smn_addr_cases int16 drv 0x5D21C) as [[r3 E3] | E3];
    rewrite E3; cbn [bind]; [| auto].
  destruct (ccd_count_cases r1 r2 r3) as [E | E]; rewrite E; auto.
Qed.




End SmnFacts.

(** * Properties of the float comparisons *)

Module FloatFacts.

Import Float.

(** Case analysis on every integer and mantissa comparison in sight. *)
Ltac compare_cases :=
  repeat match goal with
         | H : context [Pos.compare_cont Eq ?a ?b] |- _ =>
             change (Pos.compare_cont Eq a b) with (Pos.compare a b) in H
         | |- context [Pos.compare_cont Eq ?a ?b] =>
             change (Pos.compare_cont Eq a b) with (Pos.compare a b)
         end;
  repeat match goal with
         | H : context [Z.compare ?a ?b] |- _ =>
             destruct (Z.compare_spec a b); cbn in H; try discriminate H
         | H : context [Pos.compare ?a ?b] |- _ =>
             destruct (Pos.compare_spec a b); cbn in H; try discriminate H
         | |- context [Z.compare ?a ?b] =>
             destruct (Z.compare_spec a b); cbn
         | |- context [Pos.compare ?a ?b] =>
             destruct (Pos.compare_spec a b); cbn
         end;
  try reflexivity; try discriminate; try lia.

Ltac float_cases x :=
  let s := fresh "s" in
  let m := fresh "m" in
  let e := fresh "e" in
  destruct x as [s | s | | s m e]; try destruct s.

Lemma fge_refl (a : float) : is_nan a = false -> fge a a = true.
Proof.
  unfold fge, SFleb. intros H. float_cases a; cbn in *; try discriminate H;
    compare_cases.
Qed.

Lemma fge_of_lt (a b : float) : flt b a = true -> fge a b = true.
Proof.
  unfold flt, fge, SFltb, SFleb.
  destruct (SFcompare b a) as [[ | | ] |]; intros H; try discriminate H;
    reflexivity.
Qed.

Lemma fge_of_not_lt (a b : float) :
  is_nan a = false -> is_nan b = false -> flt a b = false -> fge a b = true.
Proof.
  unfold flt, fge, SFltb, SFleb. intros Ha Hb H.
  float_cases a; float_cases b; cbn in *; try discriminate; try reflexivity;
    compare_cases.
Qed.

Lemma flt_trans (a b c : float) :
  flt a b = true -> flt b c = true -> flt a c = true.
Proof.
  unfold flt, SFltb. intros Hab Hbc.
  float_cases a; float_cases b; cbn in Hab; try discriminate Hab;
    float_cases c; cbn in Hbc; try discriminate Hbc; cbn; try reflexivity;
    compare_cases.
Qed.

Lemma not_lt_lt_trans (a b c : float) :
  is_nan a = false -> flt b a = false -> flt b c = true -> flt a c = true.
Proof.
  unfold flt, SFltb. intros Ha Hba Hbc.
  float_cases a; try discriminate Ha;
    float_cases b; cbn in Hba; try discriminate Hba;
    float_cases c; cbn in Hbc; try discriminate Hbc; cbn; try reflexivity;
    compare_cases.
Qed.

Lemma flt_irrefl (a : float) : flt a a = false.
Proof.
  unfold flt, SFltb. float_cases a; cbn; try reflexivity; compare_cases.
Qed.

Lemma flt_not_nan_r (a b : float) : flt a b = true -> is_nan b = false.
Proof.
  unfold flt, SFltb. destruct a, b; cbn; intros H; try discriminate H;
    reflexivity.
Qed.

Lemma flt_asym (a b : float) : flt a b = true -> flt b a = false.
Proof.
  intros H. destruct (flt b a) eqn:E; [| reflexivity].
  rewrite <- (flt_irrefl a). symmetry. eapply flt_trans; eassumption.
Qed.

Lemma flt_feq (a b : float) : flt a b = true -> feq a b = false.
Proof.
  unfold flt, feq, SFltb, SFeqb.
  destruct (SFcompare a b) as [[ | | ] |]; intros H; try discriminate H;
    reflexivity.
Qed.

Lemma feq_nan_l (a b : float) : is_nan a = true -> feq a b = false.
Proof.
  destruct a; intros H; try discriminate H. reflexivity.
Qed.

(** Of two floats that are not NaN, one is less than the other or they are
    equal. *)
Lemma flt_of_neq (a b : float) :
  is_nan a = false -> is_nan b = false ->
  flt b a = false -> feq a b = false -> flt a b = true.
Proof.
  unfold flt, feq, SFltb, SFeqb. intros Ha Hb Hba Hab.
  float_cases a; float_cases b; cbn in *; try discriminate; try reflexivity;
    compare_cases.
Qed.

End FloatFacts.

(** * Properties of the PM-table pass *)

Module PmFacts.

Import Float Pm PmSamples FloatFacts.

(** Splits an equation [x <- c ;; k = Returns r] on the result of [c]. *)
Ltac bind_inv H :=
  match type of H with
  | bind ?c _ = Returns _ =>
      let E := fresh "E" in
      destruct c eqn:E; cbn [bind] in H; [| discriminate H]
  end.

Lemma unpack_f_Returns (bytes : list Byte.byte) (f : float) :
  unpack_f bytes = Returns f -> List.length bytes = 4%nat.
Proof.
  destruct bytes as [| b0 [| b1 [| b2 [| b3 [| b4 rest]]]]]; cbn;
    intros H; try discriminate H; reflexivity.
Qed.

Lemma unpack_f_short (bytes : list Byte.byte) :
  (List.length bytes < 4)%nat -> unpack_f bytes = Raises StructError.
Proof.
  destruct bytes as [| b0 [| b1 [| b2 [| b3 rest]]]]; cbn; intros H;
    try reflexivity; lia.
Qed.

Lemma slice4_length (pm : buffer) (offset : Z) :
  List.length (slice4 pm offset) =
  Nat.min 4 (List.length pm - Z.to_nat offset).
Proof.
  unfold slice4. rewrite length_firstn, length_skipn. reflexivity.
Qed.

(** A read that returns lies within the table. *)
Lemma read_float_in_bounds (pm : buffer) (offset : Z) (f : float) :
  0 <= offset ->
  read_float pm offset = Returns f ->
  offset + 4 <= Z.of_nat (List.length pm).
Proof.
  intros Hoff H. apply unpack_f_Returns in H.
  rewrite slice4_length in H. lia.
Qed.

(** A read that reaches beyond the end of the table raises. *)
Lemma read_float_out_of_bounds (pm : buffer) (offset : Z) :
  0 <= offset ->
  Z.of_nat (List.length pm) < offset + 4 ->
  read_float pm offset = Raises StructError.
Proof.
  intros Hoff H. apply unpack_f_short.
  rewrite slice4_length. lia.
Qed.

Lemma read_float_raises (pm : buffer) (offset : Z) (e : py_exn) :
  read_float pm offset = Raises e -> e = StructError.
Proof.
  unfold read_float, unpack_f.
  destruct (slice4 pm offset) as [| b0 [| b1 [| b2 [| b3 [| b4 rest]]]]];
    intros H; now inversion H.
Qed.

Lemma loop_body_Returns (pm : buffer) (st st' : loop_state) :
  loop_body pm st = Returns st' ->
  exists raw activity,
    read_float pm (0x30C + i st * 4) = Returns raw /\
    read_float pm (0x32C + i st * 4) = Returns activity /\
    totalA st' = fadd (totalA st) activity /\
    (peakFreq st', peakActivity st') =
      peak_step (peakFreq st, peakActivity st) (fmul raw f1000, activity) /\
    i st' = i st + 1 /\
    seen st' = seen st ++ [(fmul raw f1000, activity)].
Proof.
  unfold loop_body. intros H.
  bind_inv H. bind_inv H.
  injection H as <-. exists a, a0. cbn.
  repeat split; try reflexivity.
  unfold peak_step. cbn.
  destruct (flt (peakFreq st) (fmul a f1000)); reflexivity.
Qed.

Lemma loop_body_raises (pm : buffer) (st : loop_state) (e : py_exn) :
  loop_body pm st = Raises e -> e = StructError.
Proof.
  unfold loop_body. intros H.
  destruct (read_float pm (0x30C + i st * 4)) eqn:E1; cbn [bind] in H.
  - destruct (read_float pm (0x32C + i st * 4)) eqn:E2; cbn [bind] in H.
    + discriminate H.
    + injection H as <-. eapply read_float_raises; eassumption.
  - injection H as <-. eapply read_float_raises; eassumption.
Qed.

(** What [n] iterations of the loop leave behind. *)
Lemma loop_Returns (pm : buffer) (n : nat) :
  forall st st' : loop_state,
  loop pm n st = Returns st' ->
  exists new : list (float * float),
    List.length new = n /\
    seen st' = seen st ++ new /\
    i st' = i st + Z.of_nat n /\
    totalA st' = fold_left fadd (map snd new) (totalA st) /\
    (peakFreq st', peakActivity st') =
      fold_left peak_step new (peakFreq st, peakActivity st) /\
    forall k : nat, (k < n)%nat ->
      exists raw activity,
        read_float pm (0x30C + (i st + Z.of_nat k) * 4) = Returns raw /\
        read_float pm (0x32C + (i st + Z.of_nat k) * 4) = Returns activity /\
        nth_error new k = Some (fmul raw f1000, activity).
Proof.
  induction n as [| n IH]; intros st st' H.
  - injection H as <-. exists []. cbn.
    rewrite app_nil_r, Z.add_0_r.
    repeat split; try reflexivity. intros k Hk. lia.
  - cbn [loop] in H. bind_inv H.
    apply loop_body_Returns in E.
    destruct E as (raw & activity & Hraw & Hact & Htot & Hpeak & Hi & Hseen).
    apply IH in H.
    destruct H as (new & Hlen & Hseen' & Hi' & Htot' & Hpeak' & Hreads).
    exists ((fmul raw f1000, activity) :: new).
    split; [cbn; lia |].
    split; [rewrite Hseen', Hseen, <- app_assoc; reflexivity |].
    split; [lia |].
    split; [cbn; rewrite Htot', Htot; reflexivity |].
    split; [cbn; rewrite Hpeak', Hpeak; reflexivity |].
    intros [| k] Hk.
    + exists raw, activity. rewrite Z.add_0_r. auto.
    + destruct (Hreads k ltac:(lia)) as (raw' & act' & Hr & Ha & Hn).
      exists raw', act'. rewrite Hi in Hr, Ha.
      replace (i st + Z.of_nat (S k)) with (i st + 1 + Z.of_nat k) by lia.
      auto.
Qed.

Lemma truediv_Returns (a b q : float) :
  truediv a b = Returns q -> q = fdiv a b.
Proof.
  unfold truediv. destruct b; intros H; now inversion H.
Qed.

Lemma truediv_int_Returns (a q : float) (n : Z) :
  truediv_int a n = Returns q ->
  exists b, float_of_int n = Conv b /\ q = fdiv a b /\ n <> 0.
Proof.
  unfold truediv_int. intros H.
  destruct (float_of_int n) as [b |] eqn:E; [| discriminate H].
  exists b. split; [reflexivity |].
  split; [now apply truediv_Returns |].
  intros ->. cbn in E. injection E as <-. discriminate H.
Qed.

Lemma truediv_int_100 (a q : float) :
  truediv_int a 100 = Returns q -> q = fdiv a f100.
Proof.
  intros H. apply truediv_int_Returns in H.
  destruct H as (b & Hb & Hq & _).
  vm_compute in Hb. injection Hb as <-. exact Hq.
Qed.

(** Everything a pass that returns has read and computed. *)
Lemma parse_pass_Returns
    (carried : option float) (pm : buffer) (cores : nat) (snap : snapshot) :
  parse_pass carried pm cores = Returns snap ->
  exists (st : loop_state) (raw avg share : float),
    loop pm cores (loop_init carried) = Returns st /\
    cores_seen snap = seen st /\
    totalActivity snap = totalA st /\
    peakFrequency snap = peakFreq st /\
    peakFrequencyActivity snap = peakActivity st /\
    read_float pm 0x00C = Returns (tdcU snap) /\
    read_float pm 0x024 = Returns raw /\
    truediv_int (totalA st) (Z.of_nat cores) = Returns avg /\
    truediv_int avg 100 = Returns share /\
    edcU_raw snap = fmul raw share /\
    edcU snap =
      (if flt (edcU_raw snap) (tdcU snap) then tdcU snap else edcU_raw snap) /\
    read_float pm 0x128 = Returns (uclkMHz snap) /\
    read_float pm 0x138 = Returns (mclkMHz snap) /\
    coupledMode snap = feq (uclkMHz snap) (mclkMHz snap).
Proof.
  unfold parse_pass. intros H.
  repeat bind_inv H.
  injection H as <-. cbn.
  match goal with
  | E1 : loop _ _ _ = Returns ?st,
    E2 : read_float _ 0x024 = Returns ?raw,
    E3 : truediv_int _ (Z.of_nat _) = Returns ?avg,
    E4 : truediv_int _ 100 = Returns ?share |- _ =>
      exists st, raw, avg, share
  end.
  repeat split; try assumption; try reflexivity.
  match goal with
  | |- (if ?b then true else false) = ?b => destruct b; reflexivity
  end.
Qed.

(** A loop that still has to read beyond the end of the table raises. *)
Lemma loop_out_of_bounds (pm : buffer) (n : nat) :
  forall st : loop_state,
  (1 <= n)%nat ->
  0 <= i st ->
  Z.of_nat (List.length pm) < 0x32C + (i st + Z.of_nat n) * 4 ->
  loop pm n st = Raises StructError.
Proof.
  induction n as [| n IH]; intros st Hn Hi Hlen; [lia |].
  cbn [loop].
  destruct (loop_body pm st) as [st1 | e] eqn:E; cbn [bind].
  - apply loop_body_Returns in E.
    destruct E as (raw & activity & _ & Hact & _ & _ & Hi1 & _).
    apply read_float_in_bounds in Hact; [| lia].
    destruct n as [| n]; [lia |].
    apply IH; lia.
  - apply loop_body_raises in E. now subst e.
Qed.

(** The pair the loop ends with, against the cores it has seen, whatever
    they hold: the peak is not NaN and no core is above it; either nothing
    was assigned, or the peak is the frequency of a core above the initial
    peak, paired with that core's activity, and no earlier core has the
    same frequency. *)
Lemma peak_fold (l : list (float * float)) :
  forall (p0 : float) (a0 : option float),
  is_nan p0 = false ->
  is_nan (fst (fold_left peak_step l (p0, a0))) = false /\
  (forall x, In x l ->
     flt (fst (fold_left peak_step l (p0, a0))) (fst x) = false) /\
  ((fold_left peak_step l (p0, a0) = (p0, a0) /\
    forall x, In x l -> flt p0 (fst x) = false) \/
   (exists (k : nat) (a : float),
      nth_error l k = Some (fst (fold_left peak_step l (p0, a0)), a) /\
      snd (fold_left peak_step l (p0, a0)) = Some a /\
      flt p0 (fst (fold_left peak_step l (p0, a0))) = true /\
      forall j x, (j < k)%nat -> nth_error l j = Some x ->
        feq (fst x) (fst (fold_left peak_step l (p0, a0))) = false)).
Proof.
  induction l as [| [f a] l IH]; intros p0 a0 Hp0.
  - cbn. split; [exact Hp0 |]. split; [intros x [] |].
    left. split; [reflexivity | intros x []].
  - cbn [fold_left].
    change (peak_step (p0, a0) (f, a))
      with (if flt p0 f then (f, Some a) else (p0, a0)).
    destruct (flt p0 f) eqn:Hlt.
    + destruct (IH f (Some a) (flt_not_nan_r _ _ Hlt)) as (Hnan & Hall & Hcase).
      split; [exact Hnan |]. split.
      * intros x [<- | Hx]; [| now apply Hall]. cbn [fst].
        destruct Hcase as [[Heq _] | (k & b & _ & _ & Hup & _)].
        -- rewrite Heq. apply flt_irrefl.
        -- now apply flt_asym.
      * right. destruct Hcase as [[Heq _] | (k & b & Hk & Hb & Hup & Hearly)].
        -- exists 0%nat, a. rewrite Heq. cbn [fst snd nth_error].
           repeat split; try assumption. intros j x Hj. lia.
        -- exists (S k), b. cbn [nth_error].
           split; [exact Hk |]. split; [exact Hb |].
           split; [eapply flt_trans; eassumption |].
           intros [| j] x Hj Hx; cbn [nth_error] in Hx.
           ++ injection Hx as <-. cbn [fst]. now apply flt_feq.
           ++ apply (Hearly j); [lia | exact Hx].
    + destruct (IH p0 a0 Hp0) as (Hnan & Hall & Hcase).
      split; [exact Hnan |]. split.
      * intros x [<- | Hx]; [| now apply Hall]. cbn [fst].
        destruct Hcase as [[Heq _] | (k & b & _ & _ & Hup & _)].
        -- rewrite Heq. exact Hlt.
        -- destruct (flt (fst (fold_left peak_step l (p0, a0))) f) eqn:E;
             [| reflexivity].
           rewrite <- Hlt. symmetry. eapply flt_trans; eassumption.
      * destruct Hcase as [[Heq Hnone] | (k & b & Hk & Hb & Hup & Hearly)].
        -- left. split; [exact Heq |].
           intros x [<- | Hx]; [exact Hlt | auto].
        -- right. exists (S k), b. cbn [nth_error].
           split; [exact Hk |]. split; [exact Hb |]. split; [exact Hup |].
           intros [| j] x Hj Hx; cbn [nth_error] in Hx.
           ++ injection Hx as <-. cbn [fst].
              destruct (is_nan f) eqn:Hf; [now apply feq_nan_l |].
              apply flt_feq. eapply not_lt_lt_trans; eassumption.
           ++ apply (Hearly j); [lia | exact Hx].
Qed.

(** The cores a pass has seen are the [cores] pairs read from the table. *)
Lemma parse_pass_cores
    (carried : option float) (pm : buffer) (cores : nat) (snap : snapshot) :
  parse_pass carried pm cores = Returns snap ->
  List.length (cores_seen snap) = cores /\
  totalActivity snap = fold_left fadd (map snd (cores_seen snap)) zero /\
  (peakFrequency snap, peakFrequencyActivity snap) =
    fold_left peak_step (cores_seen snap) (zero, carried) /\
  forall k : nat, (k < cores)%nat ->
    exists raw activity,
      read_float pm (0x30C + Z.of_nat k * 4) = Returns raw /\
      read_float pm (0x32C + Z.of_nat k * 4) = Returns activity /\
      nth_error (cores_seen snap) k = Some (fmul raw f1000, activity).
Proof.
  intros H. apply parse_pass_Returns in H.
  destruct H as (st & raw & avg & share & Hloop & Hseen & Htot & Hpk & Hpa & _).
  apply loop_Returns in Hloop.
  destruct Hloop as (new & Hlen & Hnew & _ & Htot' & Hpeak & Hreads).
  cbn in Hnew, Htot', Hpeak, Hreads.
  rewrite Hseen, Htot, Hpk, Hpa, Hnew.
  repeat split; assumption.
Qed.

(** C4, as stated, fails: with a NaN in the TDC usage field the pass
    returns, the EDC usage keeps its raw value of 25.0, and
    [edcU >= tdcU] is false. *)
Lemma nan_tdc_breaks_edc_floor :
  exists snap : snapshot,
    parse_pass None nan_tdc_table 4 = Returns snap /\
    edcU snap = of_Z 25 /\
    tdcU snap = S754_nan /\
    fge (edcU snap) (tdcU snap) = false.
Proof.
  eexists. split; [vm_compute; reflexivity |].
  repeat split; reflexivity.
Qed.

(** C4, amended: after a pass that returns, the EDC usage is the TDC usage
    (the float at 0x00C) when the raw EDC usage is less than it, and the raw
    EDC usage otherwise; when neither of the two is NaN this is their
    maximum, so that [edcU >= tdcU]. *)
Theorem edc_floor
    (carried : option float) (pm : buffer) (cores : nat) (snap : snapshot) :
  parse_pass carried pm cores = Returns snap ->
  read_float pm 0x00C = Returns (tdcU snap) /\
  edcU snap =
    (if flt (edcU_raw snap) (tdcU snap) then tdcU snap else edcU_raw snap) /\
  (is_nan (edcU_raw snap) = false -> is_nan (tdcU snap) = false ->
   fge (edcU snap) (tdcU snap) = true /\
   fge (edcU snap) (edcU_raw snap) = true /\
   (edcU snap = edcU_raw snap \/ edcU snap = tdcU snap)).
Proof.
  intros H. apply parse_pass_Returns in H.
  destruct H as (st & raw & avg & share & _ & _ & _ & _ & _ & Htdc & _ & _ & _
                 & _ & Hedc & _).
  split; [exact Htdc |]. split; [exact Hedc |].
  intros Hraw Hnan. rewrite Hedc.
  destruct (flt (edcU_raw snap) (tdcU snap)) eqn:Hlt.
  - split; [now apply fge_refl |]. split; [now apply fge_of_lt | now right].
  - split; [now apply fge_of_not_lt |]. split; [now apply fge_refl | now left].
Qed.

Lemma edc_floor_witness :
  exists snap : snapshot,
    parse_pass None four_core_table 4 = Returns snap /\
    edcU snap = of_Z 25 /\
    read_float four_core_table 0x00C = Returns (tdcU snap).
Proof.
  eexists. split; [vm_compute; reflexivity |].
  split; [reflexivity |].
  refine (proj1 (edc_floor None four_core_table 4 _ _)).
  vm_compute; reflexivity.
Defined.

(** C5, as stated, fails.  A single core whose frequency field holds -1.0
    decodes to -1000.0, yet the peak stays at its initial 0, above the
    frequency of every core.  And in two turns of [while True], the first
    over the four-core sample and the second over eight cores at 0.0, the
    second turn's peak is 0, which core 0 attains with an activity of 10.0,
    while the peak activity is still the 20.0 of the first turn. *)
Lemma nonpositive_frequencies_leave_peak_unset :
  (exists snap : snapshot,
     parse_pass None negative_table 1 = Returns snap /\
     cores_seen snap = [(of_Z (-1000), of_Z 10)] /\
     peakFrequency snap = zero /\
     flt (of_Z (-1000)) (peakFrequency snap) = true) /\
  (exists first second : Z * snapshot,
     parse_turns Smn.plain_hex None
       [(SmnSamples.short_read_driver, MoreSamples.eight_core_table);
        (SmnSamples.short_read_driver, MoreSamples.idle_eight_table)] =
       Returns [first; second] /\
     peakFrequencyActivity (snd first) = Some (of_Z 20) /\
     nth_error (cores_seen (snd second)) 0 = Some (zero, of_Z 10) /\
     map fst (cores_seen (snd second)) = repeat zero 8 /\
     peakFrequency (snd second) = zero /\
     peakFrequencyActivity (snd second) = Some (of_Z 20)).
Proof.
  split.
  - eexists. split; [vm_compute; reflexivity |]. repeat split; reflexivity.
  - do 2 eexists. split; [vm_compute; reflexivity |].
    repeat split; reflexivity.
Qed.

(** C5, amended: after a pass that returns, if some core's frequency is
    greater than 0 then the peak frequency is the maximum of the per-core
    frequencies (the frequency of a core, and no core's frequency is
    greater) and the peak activity is the activity of the earliest core
    that attains it (no earlier core has that frequency; every earlier core
    that is not NaN is less); if no core's frequency is greater than 0, the
    peak frequency stays at its initial 0. *)
Theorem peak_is_first_maximum
   
    (carried : option float) (pm : buffer) (cores : nat) (snap : snapshot) :
  parse_pass carried pm cores = Returns snap ->
  List.length (cores_seen snap) = cores /\
  ((exists x, In x (cores_seen snap) /\ flt zero (fst x) = true) ->
   exists (k : nat) (a : float),
     nth_error (cores_seen snap) k = Some (peakFrequency snap, a) /\
     peakFrequencyActivity snap = Some a /\
     (forall x, In x (cores_seen snap) ->
        flt (peakFrequency snap) (fst x) = false /\
        (is_nan (fst x) = false ->
         fge (peakFrequency snap) (fst x) = true)) /\
     (forall j x, (j < k)%nat -> nth_error (cores_seen snap) j = Some x ->
        feq (fst x) (peakFrequency snap) = false /\
        (is_nan (fst x) = false ->
         flt (fst x) (peakFrequency snap) = true))) /\
  ((forall x, In x (cores_seen snap) -> flt zero (fst x) = false) ->
   peakFrequency snap = zero).
Proof.
  intros H. apply parse_pass_cores in H.
  destruct H as (Hlen & _ & Hpeak & _).
  split; [exact Hlen |].
  destruct (peak_fold (cores_seen snap) zero carried eq_refl)
    as (Hnan & Hall & Hcase).
  rewrite <- Hpeak in Hnan, Hall, Hcase. cbn [fst snd] in Hnan, Hall, Hcase.
  destruct Hcase as [[Heq Hnone] | (k & a & Hk & Ha & Hpos & Hearly)].
  - injection Heq as Hp _. split.
    + intros (x & Hx & Hlt). rewrite (Hnone x Hx) in Hlt. discriminate Hlt.
    + intros _. exact Hp.
  - split.
    + intros _. exists k, a.
      split; [exact Hk |]. split; [exact Ha |]. split.
      * intros x Hx. split; [now apply Hall |].
        intros Hx'. apply fge_of_not_lt; auto.
      * intros j x Hj Hx. split; [now apply (Hearly j) |].
        intros Hx'. apply flt_of_neq; auto.
        -- apply Hall. eapply nth_error_In; eassumption.
        -- now apply (Hearly j).
    + intros Hnone. apply nth_error_In in Hk.
      specialize (Hnone _ Hk). cbn [fst] in Hnone. congruence.
Qed.

Lemma peak_is_first_maximum_witness :
  exists snap : snapshot,
    parse_pass None four_core_table 4 = Returns snap /\
    map fst (cores_seen snap) = [of_Z 3000; of_Z 4000; of_Z 4000; of_Z 3500] /\
    map snd (cores_seen snap) = [of_Z 10; of_Z 20; of_Z 30; of_Z 40] /\
    peakFrequency snap = of_Z 4000 /\
    peakFrequencyActivity snap = Some (of_Z 20) /\
    List.length (cores_seen snap) = 4%nat.
Proof.
  eexists. split; [vm_compute; reflexivity |].
  repeat (split; [reflexivity |]).
  refine (proj1 (peak_is_first_maximum None four_core_table 4 _ _)).
  vm_compute; reflexivity.
Defined.

(** C6: after a pass that returns, [cores] is at least 1 and the raw EDC
    usage is the float at 0x024 times [totalA / cores / 100], where
    [totalA] is the sum, accumulated from 0 in ascending core order, of the
    activities of the [cores] cores, each the float at 0x32C + 4 * k. *)
Theorem edc_raw_scaled
    (carried : option float) (pm : buffer) (cores : nat) (snap : snapshot) :
  parse_pass carried pm cores = Returns snap ->
  exists raw fcores : float,
    read_float pm 0x024 = Returns raw /\
    (1 <= cores)%nat /\
    float_of_int (Z.of_nat cores) = Conv fcores /\
    List.length (cores_seen snap) = cores /\
    (forall k : nat, (k < cores)%nat ->
       exists freq activity,
         read_float pm (0x32C + Z.of_nat k * 4) = Returns activity /\
         nth_error (cores_seen snap) k = Some (freq, activity)) /\
    totalActivity snap = fold_left fadd (map snd (cores_seen snap)) zero /\
    edcU_raw snap =
      fmul raw (fdiv (fdiv (totalActivity snap) fcores) f100).
Proof.
  intros H.
  destruct (parse_pass_cores carried pm cores snap H) as (Hlen & Hsum & _ & Hreads).
  apply parse_pass_Returns in H.
  destruct H as (st & raw & avg & share & _ & _ & Htot & _ & _ & _ & Hraw
                 & Havg & Hshare & Hedc & _).
  apply truediv_int_Returns in Havg.
  destruct Havg as (fcores & Hconv & Havg & Hne).
  apply truediv_int_100 in Hshare.
  exists raw, fcores.
  split; [exact Hraw |]. split; [lia |]. split; [exact Hconv |].
  split; [exact Hlen |]. split.
  - intros k Hk. destruct (Hreads k Hk) as (r & a & _ & Ha & Hn).
    exists (fmul r f1000), a. auto.
  - split; [exact Hsum |].
    rewrite Hedc, Hshare, Havg, Htot. reflexivity.
Qed.

Lemma edc_raw_scaled_witness :
  exists snap : snapshot,
    parse_pass None four_core_table 4 = Returns snap /\
    totalActivity snap = of_Z 100 /\
    edcU_raw snap = of_Z 25 /\
    exists raw fcores : float,
      read_float four_core_table 0x024 = Returns raw /\
      (1 <= 4)%nat /\
      float_of_int 4 = Conv fcores /\
      List.length (cores_seen snap) = 4%nat /\
      (forall k : nat, (k < 4)%nat ->
         exists freq activity,
           read_float four_core_table (0x32C + Z.of_nat k * 4) = Returns activity /\
           nth_error (cores_seen snap) k = Some (freq, activity)) /\
      totalActivity snap = fold_left fadd (map snd (cores_seen snap)) zero /\
      edcU_raw snap =
        fmul raw (fdiv (fdiv (totalActivity snap) fcores) f100).
Proof.
  eexists. split; [vm_compute; reflexivity |].
  split; [reflexivity |]. split; [reflexivity |].
  refine (edc_raw_scaled None four_core_table 4 _ _).
  vm_compute; reflexivity.
Defined.

(** C7: after a pass that returns, the coupled mode is on exactly when the
    float at 0x128 (UCLK) equals the float at 0x138 (MCLK); 1600.0 equals
    1600.0, and 1600.0 does not equal the C float nearest to 1599.999. *)
Theorem coupled_mode_exact
    (carried : option float) (pm : buffer) (cores : nat) (snap : snapshot) :
  parse_pass carried pm cores = Returns snap ->
  read_float pm 0x128 = Returns (uclkMHz snap) /\
  read_float pm 0x138 = Returns (mclkMHz snap) /\
  (coupledMode snap = true <-> feq (uclkMHz snap) (mclkMHz snap) = true) /\
  feq (of_bits32 f32_1600) (of_bits32 f32_1600) = true /\
  feq (of_bits32 f32_1600) (of_bits32 f32_1599_999) = false.
Proof.
  intros H. apply parse_pass_Returns in H.
  destruct H as (st & raw & avg & share & _ & _ & _ & _ & _ & _ & _ & _ & _
                 & _ & _ & Hu & Hm & Hc).
  split; [exact Hu |]. split; [exact Hm |].
  split; [rewrite Hc; reflexivity |].
  split; reflexivity.
Qed.

Lemma coupled_mode_exact_witness :
  (exists snap : snapshot,
     parse_pass None four_core_table 4 = Returns snap /\
     uclkMHz snap = of_Z 1600 /\
     mclkMHz snap = of_Z 1600 /\
     coupledMode snap = true /\
     read_float four_core_table 0x128 = Returns (uclkMHz snap)) /\
  (exists snap : snapshot,
     parse_pass None uncoupled_table 4 = Returns snap /\
     uclkMHz snap = of_Z 1600 /\
     mclkMHz snap = of_bits32 f32_1599_999 /\
     coupledMode snap = false /\
     read_float uncoupled_table 0x138 = Returns (mclkMHz snap)).
Proof.
  split; eexists; (split; [vm_compute; reflexivity |]);
    repeat (split; [reflexivity |]).
  - refine (proj1 (coupled_mode_exact None four_core_table 4 _ _)).
    vm_compute; reflexivity.
  - refine (proj1 (proj2 (coupled_mode_exact None uncoupled_table 4 _ _))).
    vm_compute; reflexivity.
Defined.

(** C8: after a pass that returns, the frequency of core [k], for every
    [k] below [cores], is the float at 0x30C + 4 * k multiplied once by
    1000.0; a field holding 3.5 gives 3500.0. *)
Theorem core_frequency_scaled (carried : option float)
    (pm : buffer) (cores : nat) (snap : snapshot) (k : nat) :
  parse_pass carried pm cores = Returns snap ->
  (k < cores)%nat ->
  (exists raw activity : float,
     read_float pm (0x30C + Z.of_nat k * 4) = Returns raw /\
     nth_error (cores_seen snap) k = Some (fmul raw f1000, activity)) /\
  fmul (of_bits32 f32_3_5) f1000 = of_Z 3500.
Proof.
  intros H Hk.
  destruct (parse_pass_cores carried pm cores snap H) as (_ & _ & _ & Hreads).
  destruct (Hreads k Hk) as (raw & activity & Hr & _ & Hn).
  split; [exists raw, activity; auto | reflexivity].
Qed.

Lemma core_frequency_scaled_witness :
  exists snap : snapshot,
    parse_pass None four_core_table 4 = Returns snap /\
    (3 < 4)%nat /\
    read_float four_core_table (0x30C + 3 * 4) = Returns (of_bits32 f32_3_5) /\
    nth_error (cores_seen snap) 3 = Some (of_Z 3500, of_Z 40) /\
    exists raw activity : float,
      read_float four_core_table (0x30C + Z.of_nat 3 * 4) = Returns raw /\
      nth_error (cores_seen snap) 3 = Some (fmul raw f1000, activity).
Proof.
  eexists. split; [vm_compute; reflexivity |].
  split; [lia |]. split; [reflexivity |]. split; [reflexivity |].
  refine (proj1 (core_frequency_scaled None four_core_table 4 _ 3 _ _)).
  - vm_compute; reflexivity.
  - lia.
Defined.

(** A pass over a table too short for its cores raises in the loop. *)
Lemma parse_pass_out_of_bounds
    (carried : option float) (pm : buffer) (cores : nat) :
  (1 <= cores)%nat ->
  Z.of_nat (List.length pm) < 0x32C + Z.of_nat cores * 4 ->
  parse_pass carried pm cores = Raises StructError.
Proof.
  intros Hc Hlen. unfold parse_pass.
  rewrite (loop_out_of_bounds pm cores (loop_init carried) Hc); [reflexivity | cbn; lia |].
  cbn [i loop_init]. lia.
Qed.

(** A whole turn of [parse_pm_table] on a table too short for the eight
    cores of [getCoreCount] returns nothing either. *)
Lemma parse_pm_table_short (carried : option float)
    (int16 : string -> option Z) (drv : Smn.driver) (pm : buffer) :
  Z.of_nat (List.length pm) < 0x34C ->
  exists e : py_exn, parse_pm_table int16 drv carried pm = Raises e.
Proof.
  intros Hlen. unfold parse_pm_table.
  destruct (Smn.getCCDCount int16 drv) as [ccds | e]; cbn [bind];
    [| exists e; reflexivity].
  rewrite parse_pass_out_of_bounds; [exists StructError; reflexivity | |].
  - unfold getCoreCount. lia.
  - unfold getCoreCount. lia.
Qed.

(** C9: on a table shorter than 0x32C + 4 * cores bytes, with at least one
    core, the pass raises [struct.error]; it returns no snapshot. *)
Theorem short_table_raises
    (carried : option float) (pm : buffer) (cores : nat) :
  (1 <= cores)%nat ->
  Z.of_nat (List.length pm) < 0x32C + Z.of_nat cores * 4 ->
  parse_pass carried pm cores = Raises StructError /\
  (forall snap : snapshot, parse_pass carried pm cores <> Returns snap) /\
  exists k : nat,
    (k < cores)%nat /\
    read_float pm (0x32C + Z.of_nat k * 4) = Raises StructError.
Proof.
  intros Hc Hlen.
  pose proof (parse_pass_out_of_bounds carried pm cores Hc Hlen) as Hraise.
  split; [exact Hraise |]. split; [rewrite Hraise; discriminate |].
  exists (cores - 1)%nat. split; [lia |].
  apply read_float_out_of_bounds; lia.
Qed.

Lemma short_table_raises_witness :
  (1 <= 8)%nat /\
  Z.of_nat (List.length short_table) < 0x32C + Z.of_nat 8 * 4 /\
  parse_pass None short_table 8 = Raises StructError.
Proof.
  split; [lia |]. split; [vm_compute; reflexivity |].
  refine (proj1 (short_table_raises None short_table 8 _ _));
    [lia | vm_compute; reflexivity].
Defined.

End PmFacts.

(** * Further properties of the register reads *)

Module SmnMore.

Import Smn SmnSamples SmnFacts.







Lemma getCCDCount_cases (int16 : string -> option Z) (drv : driver) :
  getCCDCount int16 drv = Returns 0 \/
  getCCDCount int16 drv = Returns 1 \/
  getCCDCount int16 drv = Raises ValueError.
Proof.
  unfold getCCDCount.
  destruct (read_smn_addr_cases int16 drv 0x5D21A) as [[r1 E1] | E1];
    rewrite E1; cbn [bind]; [| auto].
  destruct (read_smn_addr_cases int16 drv 0x5D21B) as [[r2 E2] | E2];
    rewrite E2; cbn [bind]; [| auto].
  destruct (read_smn_addr_cases int16 drv 0x5D21C) as [[r3 E3] | E3];
    rewrite E3; cbn [bind]; [| auto].
  destruct (ccd_count_cases r1 r2 r3) as [E | E]; rewrite E; auto.
Qed.

Lemma substring_0_length (n : nat) (s : string) :
  String.length (substring 0 n s) = Nat.min n (String.length s).
Proof.
  revert s. induction n as [| n IH]; intros [| c s]; cbn; try reflexivity.
  now rewrite IH.
Qed.

(** X2: [read_file_str] gives the script's [False] exactly when the file holds
    fewer than nine characters; otherwise it gives the first nine. *)
Theorem read_file_str_nine (drv : driver) (addr : Z) :
  (read_file_str drv addr = None <->
   (String.length (contents drv addr) < 9)%nat) /\
  (forall value, read_file_str drv addr = Some value ->
     value = substring 0 9 (contents drv addr) /\
     String.length value = 9%nat).
Proof.
  unfold read_file_str.
  pose proof (substring_0_length 9 (contents drv addr)) as Hlen.
  destruct (Nat.eqb_spec (String.length (substring 0 9 (contents drv addr))) 9)
    as [E | E]; cbn [negb].
  - split.
    + split; [discriminate | lia].
    + intros value H. injection H as <-. auto.
  - split.
    + split; [lia | reflexivity].
    + intros value H. discriminate H.
Qed.

(** X3: a call of [getCCDCount] raises exactly when, for one of the three
    registers, the address was taken, nine characters came back and they are
    not a hexadecimal number; in every other case it returns a count, with 0
    standing for each register whose read failed. *)
Theorem getCCDCount_outcome (int16 : string -> option Z) (drv : driver) :
  let bad addr :=
    read_failed drv addr = false /\
    int16 (substring 0 9 (contents drv addr)) = None in
  let value addr :=
    if read_failed drv addr then Some 0
    else int16 (substring 0 9 (contents drv addr)) in
  (getCCDCount int16 drv = Raises ValueError <->
   bad 0x5D21A \/ bad 0x5D21B \/ bad 0x5D21C) /\
  (forall n, getCCDCount int16 drv = Returns n <->
   exists r1 r2 r3,
     value 0x5D21A = Some r1 /\ value 0x5D21B = Some r2 /\
     value 0x5D21C = Some r3 /\ n = ccd_count r1 r2 r3).
Proof.
  cbv zeta.
  assert (Hread : forall addr,
    read_smn_addr int16 drv addr =
    match (if read_failed drv addr then Some 0
           else int16 (substring 0 9 (contents drv addr))) with
    | Some n => Returns n
    | None => Raises ValueError
    end).
  { intros addr. unfold read_smn_addr, read_failed, read_file_str.
    destruct (negb (write_file32 drv addr)); cbn [orb]; [reflexivity |].
    destruct (negb (String.length (substring 0 9 (contents drv addr)) =? 9)%nat);
      reflexivity. }
  unfold getCCDCount. rewrite !Hread.
  destruct (read_failed drv 0x5D21A);
    [| destruct (int16 (substring 0 9 (contents drv 0x5D21A)))];
  (destruct (read_failed drv 0x5D21B);
    [| destruct (int16 (substring 0 9 (contents drv 0x5D21B)))]);
  (destruct (read_failed drv 0x5D21C);
    [| destruct (int16 (substring 0 9 (contents drv 0x5D21C)))]);
  cbn [bind]; (split; [split | intros n; split]);
  try (intros H; discriminate H);
  try (intros [[? ?] | [[? ?] | [? ?]]]; discriminate);
  try (intros (r1 & r2 & r3 & H1 & H2 & H3 & _); discriminate);
  try (intros H; injection H as <-; do 3 eexists; repeat split; reflexivity);
  try (intros (r1 & r2 & r3 & H1 & H2 & H3 & ->);
       injection H1 as <-; injection H2 as <-; injection H3 as <-; reflexivity);
  try (intros _; auto 6).
Qed.

End SmnMore.

(** * Properties of the readers and writers *)

Module FilesFacts.

Import Float Pm PmSamples Files PmFacts.

Lemma byte_val_range (b : Byte.byte) : 0 <= byte_val b < 256.
Proof.
  unfold byte_val. pose proof (Byte.to_N_bounded b). lia.
Qed.

Lemma byte_val_byte_of (n : Z) : byte_val (byte_of n) = n mod 256.
Proof.
  unfold byte_val, byte_of.
  assert (Hr : 0 <= Z.land n 0xff < 256).
  { change 0xff with (Z.ones 8). rewrite Z.land_ones by lia.
    apply Z.mod_pos_bound. lia. }
  destruct (Byte.of_N (Z.to_N (Z.land n 0xff))) as [b |] eqn:E.
  - apply Byte.to_of_N in E. rewrite E, Z2N.id by lia.
    change 0xff with (Z.ones 8). now rewrite Z.land_ones by lia.
  - apply Byte.of_N_None_iff in E. lia.
Qed.

(** Below 256, [a | (b << 8)] is [a + 256 * b]. *)
Lemma lor_shiftl_8 (a b : Z) :
  0 <= a < 256 -> Z.lor a (Z.shiftl b 8) = a + 256 * b.
Proof.
  intros Ha.
  assert (Hl : Z.land a (Z.shiftl b 8) = 0).
  { apply Z.bits_inj'. intros n Hn.
    rewrite Z.land_spec, Z.bits_0.
    destruct (Z.ltb_spec n 8) as [Hlt | Hge].
    - rewrite Z.shiftl_spec_low by lia. apply andb_false_r.
    - destruct (Z.eq_dec a 0) as [-> | Hnz]; [now rewrite Z.bits_0 |].
      rewrite Z.bits_above_log2; [reflexivity | lia |].
      apply Z.lt_le_trans with 8; [| lia].
      apply Z.log2_lt_pow2; lia. }
  pose proof (Z.add_lor_land a (Z.shiftl b 8)) as Hadd.
  rewrite Hl in Hadd.
  assert (Hs : Z.shiftl b 8 = 256 * b)
    by (rewrite Z.shiftl_mul_pow2 by lia; change (2 ^ 8) with 256; lia).
  lia.
Qed.

Lemma le_value_cons (b : Byte.byte) (rest : list Byte.byte) :
  le_value (b :: rest) = byte_val b + 256 * le_value rest.
Proof.
  cbn [le_value]. apply lor_shiftl_8, byte_val_range.
Qed.

Lemma le_value_range (bytes : list Byte.byte) :
  0 <= le_value bytes < 256 ^ Z.of_nat (List.length bytes).
Proof.
  induction bytes as [| b rest IH].
  - cbn. lia.
  - rewrite le_value_cons.
    change (List.length (b :: rest)) with (S (List.length rest)).
    rewrite Nat2Z.inj_succ, Z.pow_succ_r by lia.
    pose proof (byte_val_range b). lia.
Qed.

Lemma le_value_le32 (v : Z) :
  0 <= v < 0x100000000 -> le_value (le32 v) = v.
Proof.
  intros Hv. unfold le32. rewrite !le_value_cons, !byte_val_byte_of.
  cbn [le_value]. rewrite !Z.shiftr_div_pow2 by lia.
  change (2 ^ 8) with 256. change (2 ^ 16) with 65536.
  change (2 ^ 24) with 16777216.
  Z.div_mod_to_equations. lia.
Qed.

Lemma unpack_f_word (bytes : list Byte.byte) :
  unpack_f bytes = (w <- unpack_I bytes ;; Returns (of_bits32 w)).
Proof.
  destruct bytes as [| b0 [| b1 [| b2 [| b3 [| b4 rest]]]]]; try reflexivity.
  cbn [unpack_f unpack_I List.length Nat.eqb bind le_value].
  rewrite !Z.shiftl_lor, !Z.shiftl_shiftl, Z.shiftl_0_l, !Z.lor_0_r by lia.
  reflexivity.
Qed.

Lemma slice_length (k : nat) (pm : buffer) (offset : Z) :
  List.length (firstn k (skipn (Z.to_nat offset) pm)) =
  Nat.min k (List.length pm - Z.to_nat offset).
Proof.
  rewrite length_firstn, length_skipn. reflexivity.
Qed.

(** X4: the readers return exactly when the bytes they ask for lie within the
    buffer (four for [read_float] and [read_int], eight for [read_double]);
    otherwise they raise [struct.error]. *)
Theorem readers_in_bounds (pm : buffer) (offset : Z) :
  0 <= offset ->
  ((exists f, read_float pm offset = Returns f) <->
   offset + 4 <= Z.of_nat (List.length pm)) /\
  ((exists n, read_int pm offset = Returns n) <->
   offset + 4 <= Z.of_nat (List.length pm)) /\
  ((exists d, read_double pm offset = Returns d) <->
   offset + 8 <= Z.of_nat (List.length pm)) /\
  (Z.of_nat (List.length pm) < offset + 4 ->
   read_float pm offset = Raises StructError /\
   read_int pm offset = Raises StructError) /\
  (Z.of_nat (List.length pm) < offset + 8 ->
   read_double pm offset = Raises StructError).
Proof.
  intros Hoff.
  assert (Hint : (exists n, read_int pm offset = Returns n) <->
                 offset + 4 <= Z.of_nat (List.length pm)).
  { unfold read_int, unpack_I, slice4. rewrite slice_length.
    destruct (Nat.eqb_spec (Nat.min 4 (List.length pm - Z.to_nat offset)) 4);
      split; intros H; try lia; eauto.
    destruct H as [x H]. discriminate H. }
  split; [| split; [exact Hint | split; [| split]]].
  - unfold read_float. rewrite unpack_f_word.
    fold (read_int pm offset). rewrite <- Hint.
    destruct (read_int pm offset); cbn [bind]; split; intros [x H];
      try discriminate H; eauto.
  - unfold read_double, unpack_d, slice8. rewrite slice_length.
    destruct (Nat.eqb_spec (Nat.min 8 (List.length pm - Z.to_nat offset)) 8);
      split; intros H; try lia; eauto.
    destruct H as [x H]. discriminate H.
  - intros Hshort.
    assert (Hi : read_int pm offset = Raises StructError).
    { unfold read_int, unpack_I, slice4. rewrite slice_length.
      destruct (Nat.eqb_spec (Nat.min 4 (List.length pm - Z.to_nat offset)) 4);
        [lia | reflexivity]. }
    split; [| exact Hi].
    unfold read_float. rewrite unpack_f_word.
    fold (read_int pm offset). rewrite Hi. reflexivity.
  - intros Hshort.
    unfold read_double, unpack_d, slice8. rewrite slice_length.
    destruct (Nat.eqb_spec (Nat.min 8 (List.length pm - Z.to_nat offset)) 8);
      [lia | reflexivity].
Qed.

Lemma readers_in_bounds_witness :
  0 <= 0x338 /\
  read_float four_core_table 0x338 = Returns (of_Z 40) /\
  read_double four_core_table 0x338 = Raises StructError /\
  ((exists f, read_float four_core_table 0x338 = Returns f) <->
   0x338 + 4 <= Z.of_nat (List.length four_core_table)).
Proof.
  split; [lia |]. split; [reflexivity |]. split; [reflexivity |].
  refine (proj1 (readers_in_bounds four_core_table 0x338 _)). lia.
Defined.

(** X5: [read_float] and [read_int] decode the same 32-bit word: the float is
    the value of the bit pattern [read_int] returns, and that integer lies
    in 0 .. 2^32 - 1. *)
Theorem read_float_of_read_int (pm : buffer) (offset : Z) :
  read_float pm offset = (w <- read_int pm offset ;; Returns (of_bits32 w)) /\
  (forall w, read_int pm offset = Returns w -> 0 <= w < 0x100000000).
Proof.
  split; [apply unpack_f_word |].
  unfold read_int, unpack_I. intros w H.
  destruct (Nat.eqb_spec (List.length (slice4 pm offset)) 4) as [E | E];
    [| discriminate H].
  injection H as <-.
  pose proof (le_value_range (slice4 pm offset)) as Hr.
  rewrite E in Hr. exact Hr.
Qed.

Lemma skipn_app_le32 (pre : list Byte.byte) (v : Z) (post : list Byte.byte) :
  slice4 (pre ++ le32 v ++ post) (Z.of_nat (List.length pre)) = le32 v.
Proof.
  unfold slice4. rewrite Nat2Z.id, skipn_app, skipn_all, Nat.sub_diag.
  reflexivity.
Qed.

Lemma pack_I_Returns (values : list Z) :
  forall bytes, pack_I values = Returns bytes ->
  bytes = List.concat (map le32 values) /\
  Forall (fun v => 0 <= v < 0x100000000) values.
Proof.
  induction values as [| v rest IH]; intros bytes H.
  - injection H as <-. split; [reflexivity | constructor].
  - cbn [pack_I] in H.
    destruct ((0 <=? v) && (v <? 0x100000000)) eqn:Hv; [| discriminate H].
    destruct (pack_I rest) as [tail |] eqn:E; [| discriminate H].
    injection H as <-. destruct (IH tail eq_refl) as [-> Hall].
    split; [reflexivity |]. constructor; [lia | exact Hall].
Qed.

Lemma read_int_concat (values : list Z) :
  Forall (fun v => 0 <= v < 0x100000000) values ->
  forall (k : nat) (v : Z),
  nth_error values k = Some v ->
  read_int (List.concat (map le32 values)) (4 * Z.of_nat k) = Returns v.
Proof.
  intros Hall k v Hk.
  apply nth_error_split in Hk. destruct Hk as (before & after & -> & <-).
  rewrite map_app, concat_app. cbn [map List.concat].
  assert (Hlen : 4 * Z.of_nat (List.length before) =
                 Z.of_nat (List.length (List.concat (map le32 before)))).
  { clear. induction before as [| x l IH]; [reflexivity |].
    cbn [map List.concat]. rewrite length_app. cbn [List.length le32] in *. lia. }
  rewrite Hlen. unfold read_int.
  rewrite skipn_app_le32. unfold unpack_I. cbn [le32 List.length Nat.eqb].
  fold (le32 v). rewrite le_value_le32; [reflexivity |].
  apply Forall_app in Hall. destruct Hall as [_ Hall].
  now inversion Hall.
Qed.

(** X6: what the writers pack, [read_int] reads back: when [struct.pack]
    returns, it gives four bytes per value, and [read_int] at offset
    [4 * k] of those bytes returns the value of index [k]. *)
Theorem pack_read_int_round_trip (values : list Z) (bytes : list Byte.byte) :
  pack_I values = Returns bytes ->
  List.length bytes = (4 * List.length values)%nat /\
  forall (k : nat) (v : Z),
    nth_error values k = Some v ->
    read_int bytes (4 * Z.of_nat k) = Returns v.
Proof.
  intros H. apply pack_I_Returns in H. destruct H as [-> Hall].
  split.
  - clear. induction values as [| x l IH]; [reflexivity |].
    cbn [map List.concat]. rewrite length_app. cbn [List.length le32] in *. lia.
  - now apply read_int_concat.
Qed.

Lemma pack_read_int_round_trip_witness :
  pack_I [0x5D21A; 0xDEADBEEF] =
    Returns (le32 0x5D21A ++ le32 0xDEADBEEF) /\
  read_int (le32 0x5D21A ++ le32 0xDEADBEEF) (4 * Z.of_nat 1) =
    Returns 0xDEADBEEF.
Proof.
  split; [reflexivity |].
  refine (proj2 (pack_read_int_round_trip [0x5D21A; 0xDEADBEEF] _ _) 1%nat _ _);
    reflexivity.
Defined.

(** X7: [write_file192] raises [struct.error] exactly when one of its six
    values lies outside 0 .. 2^32 - 1, whichever one it is; otherwise it
    hands [fp.write] the 24 bytes of the six values, in order, and reports
    whether 24 were written. *)
Theorem write_file192_outcome
    (fp_write : list Byte.byte -> Z) (v1 v2 v3 v4 v5 v6 : Z) :
  let values := [v1; v2; v3; v4; v5; v6] in
  (write_file192 fp_write v1 v2 v3 v4 v5 v6 = Raises StructError <->
   Exists (fun v => v < 0 \/ 0x100000000 <= v) values) /\
  (Forall (fun v => 0 <= v < 0x100000000) values ->
   write_file192 fp_write v1 v2 v3 v4 v5 v6 =
     Returns (fp_write (List.concat (map le32 values)) =? 24) /\
   List.length (List.concat (map le32 values)) = 24%nat).
Proof.
  cbv zeta. unfold write_file192. cbn [pack_I].
  split.
  - repeat match goal with
           | |- context [(0 <=? ?v) && (?v <? 0x100000000)] =>
               let E := fresh "E" in
               destruct ((0 <=? v) && (v <? 0x100000000)) eqn:E
           end; cbn [bind];
    (split; [intros H; try discriminate H | intros H; try reflexivity]).
    all: repeat match goal with
                | H : Exists _ (_ :: _) |- _ => inversion H; clear H; subst
                | H : Exists _ [] |- _ => inversion H
                end; try lia.
    all: repeat (first [apply Exists_cons_hd; lia | apply Exists_cons_tl]).
  - intros Hall.
    repeat match goal with
           | H : Forall _ (_ :: _) |- _ => inversion H; clear H; subst
           end.
    repeat match goal with
           | |- context [(0 <=? ?v) && (?v <? 0x100000000)] =>
               replace ((0 <=? v) && (v <? 0x100000000)) with true by lia
           end.
    cbn [bind map List.concat]. split; reflexivity.
Qed.

Lemma write_file192_outcome_witness :
  write_file192 (fun bytes => Z.of_nat (List.length bytes)) 1 2 3 4 5 6 =
    Returns true /\
  write_file192 (fun bytes => Z.of_nat (List.length bytes)) 1 2 3 4 5 (-6) =
    Raises StructError.
Proof.
  split; [reflexivity |].
  apply (proj1 (write_file192_outcome _ 1 2 3 4 5 (-6))).
  do 5 apply Exists_cons_tl. apply Exists_cons_hd. lia.
Defined.

End FilesFacts.

(** * Further properties of the PM-table pass *)

Module PmMore.

Import Float Pm PmSamples Files FloatFacts PmFacts.

(** X8: after a pass that returns, whatever the table holds (NaN included):
    the peak frequency is not NaN and not negative and no core's frequency
    is greater than it; either the peak is still the initial 0 and the peak
    activity is what it was before the pass (unbound on the first turn), or
    the peak is greater than 0 and peak and peak activity are the frequency
    and the activity of one core of this pass. *)
Theorem peak_never_exceeded
   
    (carried : option float) (pm : buffer) (cores : nat) (snap : snapshot) :
  parse_pass carried pm cores = Returns snap ->
  is_nan (peakFrequency snap) = false /\
  fge (peakFrequency snap) zero = true /\
  (forall x, In x (cores_seen snap) ->
     flt (peakFrequency snap) (fst x) = false) /\
  ((peakFrequency snap = zero /\ peakFrequencyActivity snap = carried) \/
   (flt zero (peakFrequency snap) = true /\
    exists a, peakFrequencyActivity snap = Some a /\
              In (peakFrequency snap, a) (cores_seen snap))).
Proof.
  intros H. apply parse_pass_cores in H.
  destruct H as (_ & _ & Hpeak & _).
  destruct (peak_fold (cores_seen snap) zero carried eq_refl)
    as (Hnan & Hall & Hcase).
  rewrite <- Hpeak in Hnan, Hall, Hcase. cbn [fst snd] in Hnan, Hall, Hcase.
  split; [exact Hnan |].
  destruct Hcase as [[Heq _] | (k & a & Hk & Ha & Hup & _)].
  - injection Heq as Hp Ha.
    split; [rewrite Hp; reflexivity |]. split; [exact Hall |].
    left. split; assumption.
  - split; [now apply fge_of_lt |]. split; [exact Hall |].
    right. split; [exact Hup |]. exists a. split; [exact Ha |].
    eapply nth_error_In; eassumption.
Qed.

Lemma peak_never_exceeded_witness :
  exists snap : snapshot,
    parse_pass (Some (of_Z 20)) MoreSamples.idle_eight_table 8 =
      Returns snap /\
    peakFrequency snap = zero /\
    peakFrequencyActivity snap = Some (of_Z 20) /\
    is_nan (peakFrequency snap) = false.
Proof.
  eexists. split; [vm_compute; reflexivity |].
  split; [reflexivity |]. split; [reflexivity |].
  refine (proj1 (peak_never_exceeded (Some (of_Z 20))
                   MoreSamples.idle_eight_table 8 _ _)).
  vm_compute; reflexivity.
Defined.

(** X9: after a pass that returns, whatever the table holds (NaN included), the
    EDC usage is never less than the TDC usage: [edcU < tdcU] is false. *)
Theorem edc_not_below_tdc
    (carried : option float) (pm : buffer) (cores : nat) (snap : snapshot) :
  parse_pass carried pm cores = Returns snap ->
  flt (edcU snap) (tdcU snap) = false.
Proof.
  intros H. apply parse_pass_Returns in H.
  destruct H as (st & raw & avg & share & _ & _ & _ & _ & _ & _ & _ & _ & _
                 & _ & Hedc & _).
  rewrite Hedc.
  destruct (flt (edcU_raw snap) (tdcU snap)) eqn:Hlt;
    [apply flt_irrefl | exact Hlt].
Qed.

Lemma edc_not_below_tdc_witness :
  exists snap : snapshot,
    parse_pass None nan_tdc_table 4 = Returns snap /\
    tdcU snap = S754_nan /\
    flt (edcU snap) (tdcU snap) = false.
Proof.
  eexists. split; [vm_compute; reflexivity |].
  split; [reflexivity |].
  refine (edc_not_below_tdc None nan_tdc_table 4 _ _).
  vm_compute; reflexivity.
Defined.


Lemma slice4_app (pm extra : buffer) (offset : Z) :
  0 <= offset ->
  offset + 4 <= Z.of_nat (List.length pm) ->
  slice4 (pm ++ extra) offset = slice4 pm offset.
Proof.
  intros Hoff Hlen. unfold slice4.
  rewrite skipn_app, firstn_app, length_skipn.
  replace (4 - (List.length pm - Z.to_nat offset))%nat with 0%nat by lia.
  cbn [firstn]. apply app_nil_r.
Qed.

Lemma read_float_app (pm extra : buffer) (offset : Z) :
  0 <= offset ->
  offset + 4 <= Z.of_nat (List.length pm) ->
  read_float (pm ++ extra) offset = read_float pm offset.
Proof.
  intros Hoff Hlen. unfold read_float. now rewrite slice4_app.
Qed.

Lemma loop_body_app (pm extra : buffer) (st : loop_state) :
  0 <= i st ->
  0x32C + i st * 4 + 4 <= Z.of_nat (List.length pm) ->
  loop_body (pm ++ extra) st = loop_body pm st.
Proof.
  intros Hi Hlen. unfold loop_body.
  rewrite !read_float_app by lia. reflexivity.
Qed.

Lemma loop_app (pm extra : buffer) (n : nat) :
  forall st : loop_state,
  0 <= i st ->
  0x32C + (i st + Z.of_nat n) * 4 <= Z.of_nat (List.length pm) ->
  loop (pm ++ extra) n st = loop pm n st.
Proof.
  induction n as [| n IH]; intros st Hi Hlen; [reflexivity |].
  cbn [loop]. rewrite loop_body_app by lia.
  destruct (loop_body pm st) as [st1 | e] eqn:E; cbn [bind]; [| reflexivity].
  apply loop_body_Returns in E.
  destruct E as (_ & _ & _ & _ & _ & _ & Hi1 & _).
  apply IH; lia.
Qed.

(** X10: bytes beyond those of the cores are never looked at: on a table that
    has its 0x32C + 4 * cores bytes, appending anything leaves the outcome
    of the pass unchanged. *)
Theorem trailing_bytes_ignored
    (carried : option float) (pm extra : buffer) (cores : nat) :
  0x32C + Z.of_nat cores * 4 <= Z.of_nat (List.length pm) ->
  parse_pass carried (pm ++ extra) cores = parse_pass carried pm cores.
Proof.
  intros Hlen. unfold parse_pass.
  rewrite loop_app by (cbn [i loop_init]; lia).
  rewrite !(read_float_app pm extra) by lia.
  reflexivity.
Qed.

Lemma trailing_bytes_ignored_witness :
  0x32C + Z.of_nat 4 * 4 <= Z.of_nat (List.length four_core_table) /\
  parse_pass None (four_core_table ++ [Byte.xff; Byte.xff]) 4 =
    parse_pass None four_core_table 4.
Proof.
  split; [vm_compute; discriminate |].
  apply (trailing_bytes_ignored None four_core_table [Byte.xff; Byte.xff] 4).
  vm_compute; discriminate.
Defined.








(** X12: the frequency fields run into the activity fields after eight cores:
    in a pass over more than eight cores, the frequency of core [k + 8] is
    1000.0 times the activity of core [k]. *)
Theorem frequency_fields_overlap_activity (carried : option float)
    (pm : buffer) (cores : nat) (snap : snapshot) (k : nat) :
  parse_pass carried pm cores = Returns snap ->
  (k + 8 < cores)%nat ->
  exists freq activity activity' : float,
    nth_error (cores_seen snap) k = Some (freq, activity) /\
    nth_error (cores_seen snap) (k + 8) =
      Some (fmul activity f1000, activity').
Proof.
  intros H Hk. apply parse_pass_cores in H.
  destruct H as (_ & _ & _ & Hreads).
  destruct (Hreads k ltac:(lia)) as (raw & act & _ & Hact & Hn).
  destruct (Hreads (k + 8)%nat Hk) as (raw' & act' & Hraw' & _ & Hn').
  replace (0x30C + Z.of_nat (k + 8) * 4) with (0x32C + Z.of_nat k * 4)
    in Hraw' by lia.
  rewrite Hact in Hraw'. injection Hraw' as <-.
  exists (fmul raw f1000), act, act'. auto.
Qed.

Lemma frequency_fields_overlap_activity_witness :
  exists snap : snapshot,
    parse_pass None (MoreSamples.eight_core_table ++ repeat Byte.x00 4) 9 =
      Returns snap /\
    nth_error (cores_seen snap) 0 = Some (of_Z 3000, of_Z 10) /\
    nth_error (cores_seen snap) 8 = Some (of_Z 10000, zero) /\
    exists freq activity activity' : float,
      nth_error (cores_seen snap) 0 = Some (freq, activity) /\
      nth_error (cores_seen snap) (0 + 8) =
        Some (fmul activity f1000, activity').
Proof.
  eexists. split; [vm_compute; reflexivity |].
  split; [reflexivity |]. split; [reflexivity |].
  refine (frequency_fields_overlap_activity None
            (MoreSamples.eight_core_table ++ repeat Byte.x00 4) 9 _ 0 _ _).
  - vm_compute; reflexivity.
  - lia.
Defined.

Lemma feq_self (a : float) : feq a a = negb (is_nan a).
Proof.
  unfold feq, SFeqb. float_cases a; cbn; try reflexivity; compare_cases.
Qed.

(** X13: when the four bytes at 0x128 and at 0x138 are the same, the coupled
    mode is on unless they are the bytes of a NaN; with a NaN in either
    field it is off. *)
Theorem coupled_mode_same_bytes
    (carried : option float) (pm : buffer) (cores : nat) (snap : snapshot) :
  parse_pass carried pm cores = Returns snap ->
  (slice4 pm 0x128 = slice4 pm 0x138 ->
   coupledMode snap = negb (is_nan (uclkMHz snap))) /\
  (is_nan (uclkMHz snap) = true \/ is_nan (mclkMHz snap) = true ->
   coupledMode snap = false).
Proof.
  intros H. apply parse_pass_Returns in H.
  destruct H as (st & raw & avg & share & _ & _ & _ & _ & _ & _ & _ & _ & _
                 & _ & _ & Hu & Hm & Hc).
  split.
  - intros Hsame. unfold read_float in Hu, Hm.
    rewrite Hsame, Hm in Hu. injection Hu as Hu.
    rewrite Hc, <- Hu. apply feq_self.
  - rewrite Hc. unfold feq, SFeqb.
    intros [Hn | Hn].
    + destruct (uclkMHz snap); try discriminate Hn. reflexivity.
    + destruct (mclkMHz snap); try discriminate Hn.
      destruct (uclkMHz snap); reflexivity.
Qed.

Lemma coupled_mode_same_bytes_witness :
  exists snap : snapshot,
    parse_pass None four_core_table 4 = Returns snap /\
    slice4 four_core_table 0x128 = slice4 four_core_table 0x138 /\
    coupledMode snap = negb (is_nan (uclkMHz snap)).
Proof.
  eexists. split; [vm_compute; reflexivity |].
  split; [reflexivity |].
  refine (proj1 (coupled_mode_same_bytes None four_core_table 4 _ _) _).
  - vm_compute; reflexivity.
  - reflexivity.
Defined.

End PmMore.
